(** * The Allora actions of cdp-agentkit-core

    A shallow embedding of
    [cdp_agentkit_core/actions/allora/__init__.py],
    [cdp_agentkit_core/actions/allora/get_all_topics.py] and
    [cdp_agentkit_core/actions/allora/get_price_prediction.py],
    with the part of the Python run time the three files rely on:
    values and their [str]/[repr], exceptions and [except Exception],
    attribute lookup, [json.dumps(..., indent=4)], [await] on a client
    operation, and the validation of a pydantic model's fields.

    Outside the model: nesting deeper than the interpreter's recursion
    limit (where [repr] and [json.dumps] raise [RecursionError]), bytes,
    instances of subclasses of the built-in types, and classes whose
    attribute lookup runs code of their own. *)

From Stdlib Require Import String Ascii List ZArith NArith Bool Lia DecimalString.
Import ListNotations.
Local Open Scope string_scope.

(** ** Python strings

    A Python [str] is modelled by a Rocq [string] whose characters are read
    as the code points U+0000 to U+00FF. *)

Definition chr (n : N) : string := String (ascii_of_N n) EmptyString.

Definition NL : string := chr 10.   (* line feed *)
Definition DQ : string := chr 34.   (* double quote *)
Definition SQ : string := chr 39.   (* single quote *)
Definition BSL : string := chr 92.  (* backslash *)

Fixpoint spaces (n : nat) : string :=
  match n with
  | O => EmptyString
  | S n' => String " " (spaces n')
  end.

(** [sep.join(chunks)] *)
Fixpoint join (sep : string) (chunks : list string) : string :=
  match chunks with
  | [] => EmptyString
  | [x] => x
  | x :: rest => x ++ sep ++ join sep rest
  end.

(** The concatenation of [f c] for the characters [c] of [s]. *)
Fixpoint flat_map_chars (f : ascii -> string) (s : string) : string :=
  match s with
  | EmptyString => EmptyString
  | String c rest => f c ++ flat_map_chars f rest
  end.

Fixpoint contains_char (c : ascii) (s : string) : bool :=
  match s with
  | EmptyString => false
  | String d rest => Ascii.eqb c d || contains_char c rest
  end.

Definition hexdigit (d : N) : ascii :=
  match String.get (N.to_nat d) "0123456789abcdef" with
  | Some c => c
  | None => "0"%char
  end.

(** Two lower-case hexadecimal digits, as [%02x] prints a code point below
    256. *)
Definition hex2 (n : N) : string :=
  String (hexdigit (n / 16)) (String (hexdigit (n mod 16)) EmptyString).

(** The decimal numeral of an integer, with a minus sign below zero. *)
Definition int_repr (z : Z) : string := NilZero.string_of_int (Z.to_int z).

(** ** Exceptions *)

(** The exception classes the model names, and [Subclass name base] for any
    class derived from one of them. *)
Inductive ExcClass : Type :=
| BaseException
| Exception
| KeyboardInterrupt
| SystemExit
| GeneratorExit
| CancelledError
| TypeError
| ValueError
| AttributeError
| Subclass (name : string) (base : ExcClass).

(** [issubclass(c, Exception)].  [KeyboardInterrupt], [SystemExit],
    [GeneratorExit] and [asyncio.CancelledError] derive from
    [BaseException] directly. *)
Fixpoint issubclass_Exception (c : ExcClass) : bool :=
  match c with
  | Exception | TypeError | ValueError | AttributeError => true
  | Subclass _ base => issubclass_Exception base
  | BaseException | KeyboardInterrupt | SystemExit | GeneratorExit
  | CancelledError => false
  end.

(** A raised exception whose text can be read: its class and [exc_str],
    the text [str(e)] returns. *)
Record PyExc : Type := mkExc { exc_class : ExcClass; exc_str : string }.

Definition isinstance_Exception (e : PyExc) : bool :=
  issubclass_Exception (exc_class e).

(** What evaluating an expression or a call ends in: a value, an exception
    [e] with a text, or an exception of class [cls] whose [__str__] raises
    [from_str] instead of returning a text. *)
Inductive outcome (A : Type) : Type :=
| Returned (a : A)
| Raised (e : PyExc)
| RaisedUnprintable (cls : ExcClass) (from_str : PyExc).
Arguments Returned {A} a.
Arguments Raised {A} e.
Arguments RaisedUnprintable {A} cls from_str.

Definition obind {A B : Type} (m : outcome A) (f : A -> outcome B) : outcome B :=
  match m with
  | Returned a => f a
  | Raised e => Raised e
  | RaisedUnprintable cls from_str => RaisedUnprintable cls from_str
  end.

(** ** The error monad of expressions *)

Declare Scope outcome_scope.
Delimit Scope outcome_scope with outcome.
Notation "x <- m ;; k" := (obind m (fun x => k))
  (at level 61, m at next level, right associativity) : outcome_scope.

(** [f] on the elements of a list, in order, up to the first one on which
    it raises. *)
Section Traverse.
Context {A B : Type} (f : A -> outcome B).

Fixpoint traverse (l : list A) : outcome (list B) :=
  match l with
  | [] => Returned []
  | x :: rest =>
      (y <- f x ;;
       ys <- traverse rest ;;
       Returned (y :: ys))%outcome
  end.
End Traverse.

(** The exception an [except ... as e] clause binds. *)
Inductive Caught : Type :=
| CaughtExc (e : PyExc)
| CaughtUnprintable (cls : ExcClass) (from_str : PyExc).

(** [str(e)], which is what an f-string field [{e}] inserts: the text of
    the exception, or what its [__str__] raises. *)
Definition str_caught (e : Caught) : outcome string :=
  match e with
  | CaughtExc e => Returned (exc_str e)
  | CaughtUnprintable _ from_str => Raised from_str
  end.

(** ** Integers as text *)

(** [sys.get_int_max_str_digits()], at its default. *)
Definition int_max_str_digits : nat := 4300.

Definition int_digits (z : Z) : nat := Decimal.nb_digits (Decimal.abs (Z.to_int z)).

(** [int.__repr__], which [str], [repr] and [json.dumps] use: the decimal
    numeral, or a [ValueError] when it would have more digits than the
    limit. *)
Definition int_str_error : PyExc :=
  mkExc ValueError
    "Exceeds the limit (4300 digits) for integer string conversion; use sys.set_int_max_str_digits() to increase the limit".

Definition int_str (z : Z) : outcome string :=
  if Nat.leb (int_digits z) int_max_str_digits
  then Returned (int_repr z)
  else Raised int_str_error.

(** ** Floating-point numbers *)

(** The characters a [float.__repr__] of a finite number is written in. *)
Inductive FloatChar : Type :=
| F0 | F1 | F2 | F3 | F4 | F5 | F6 | F7 | F8 | F9
| Fdot | Fminus | Fplus | Fe.

Definition float_char (c : FloatChar) : ascii :=
  match c with
  | F0 => "0" | F1 => "1" | F2 => "2" | F3 => "3" | F4 => "4"
  | F5 => "5" | F6 => "6" | F7 => "7" | F8 => "8" | F9 => "9"
  | Fdot => "." | Fminus => "-" | Fplus => "+" | Fe => "e"
  end%char.

(** A float: not a number, an infinity, or a finite number, which the model
    knows by the text of its [float.__repr__] (["50000.0"], ["1e-05"]). *)
Inductive PyFloat : Type :=
| FNan
| FInf
| FNegInf
| FFinite (repr : list FloatChar).

Definition float_text (repr : list FloatChar) : string :=
  fold_right (fun c s => String (float_char c) s) EmptyString repr.

(** [float.__repr__] *)
Definition float_repr (f : PyFloat) : string :=
  match f with
  | FNan => "nan"
  | FInf => "inf"
  | FNegInf => "-inf"
  | FFinite repr => float_text repr
  end.

(** The text [json.dumps] writes for a float ([allow_nan] is left at its
    default). *)
Definition float_json (f : PyFloat) : string :=
  match f with
  | FNan => "NaN"
  | FInf => "Infinity"
  | FNegInf => "-Infinity"
  | FFinite repr => float_text repr
  end.

(** ** Python values *)

(** The values the model covers: [None], [bool], [int], [float], [str],
    [list], [tuple], [dict] (its items in insertion order) and instances of
    other classes.  [PObject cls text attrs] is an instance of a class named
    [cls] with the instance attributes [attrs]; [text] is what [repr]
    returns on it and, the class leaving [__str__] alone, what [str] and
    [format] return. *)
#[local] Unset Elimination Schemes.
Inductive PyValue : Type :=
| PNone
| PBool (b : bool)
| PInt (z : Z)
| PFloat (f : PyFloat)
| PStr (s : string)
| PList (items : list PyValue)
| PTuple (items : list PyValue)
| PDict (items : list (PyValue * PyValue))
| PObject (cls : string) (text : string) (attrs : list (string * PyValue)).
#[local] Set Elimination Schemes.

(** *** Induction on values

    The induction principle that reaches the values inside lists, tuples,
    dictionaries and objects. *)

Section PyValue_induction.
Variable P : PyValue -> Prop.
Hypothesis HNone : P PNone.
Hypothesis HBool : forall b, P (PBool b).
Hypothesis HInt : forall z, P (PInt z).
Hypothesis HFloat : forall f, P (PFloat f).
Hypothesis HStr : forall s, P (PStr s).
Hypothesis HList : forall items, Forall P items -> P (PList items).
Hypothesis HTuple : forall items, Forall P items -> P (PTuple items).
Hypothesis HDict :
  forall items, Forall (fun kv => P (fst kv) /\ P (snd kv)) items -> P (PDict items).
Hypothesis HObject :
  forall cls text attrs,
    Forall (fun kv => P (snd kv)) attrs -> P (PObject cls text attrs).

Fixpoint PyValue_ind (o : PyValue) : P o :=
  let all_values :=
    fix all (l : list PyValue) : Forall P l :=
      match l with
      | [] => Forall_nil _
      | x :: rest => Forall_cons x (PyValue_ind x) (all rest)
      end in
  match o with
  | PNone => HNone
  | PBool b => HBool b
  | PInt z => HInt z
  | PFloat f => HFloat f
  | PStr s => HStr s
  | PList items => HList items (all_values items)
  | PTuple items => HTuple items (all_values items)
  | PDict items =>
      HDict items
        ((fix all (l : list (PyValue * PyValue))
            : Forall (fun kv => P (fst kv) /\ P (snd kv)) l :=
            match l with
            | [] => Forall_nil _
            | (k, v) :: rest =>
                Forall_cons (k, v) (conj (PyValue_ind k) (PyValue_ind v)) (all rest)
            end) items)
  | PObject cls text attrs =>
      HObject cls text attrs
        ((fix all (l : list (string * PyValue))
            : Forall (fun kv => P (snd kv)) l :=
            match l with
            | [] => Forall_nil _
            | (k, v) :: rest => Forall_cons (k, v) (PyValue_ind v) (all rest)
            end) attrs)
  end.
End PyValue_induction.

(** [type(o).__name__] *)
Definition type_name (o : PyValue) : string :=
  match o with
  | PNone => "NoneType"
  | PBool _ => "bool"
  | PInt _ => "int"
  | PFloat _ => "float"
  | PStr _ => "str"
  | PList _ => "list"
  | PTuple _ => "tuple"
  | PDict _ => "dict"
  | PObject cls _ _ => cls
  end.

(** *** [repr] and [str] *)

(** Whether [repr] prints the code point as it is: the printable ASCII
    characters and, above them, what [str.isprintable] accepts (it rejects
    the controls U+0080 to U+009F, the no-break space and the soft
    hyphen). *)
Definition repr_printable (n : N) : bool :=
  ((32 <=? n) && (n <? 127))%N
  || ((161 <=? n) && negb (n =? 173))%N.

Definition repr_char (quote : ascii) (c : ascii) : string :=
  let n := N_of_ascii c in
  if Ascii.eqb c quote || (n =? 92)%N then BSL ++ String c EmptyString
  else if (n =? 9)%N then BSL ++ "t"
  else if (n =? 10)%N then BSL ++ "n"
  else if (n =? 13)%N then BSL ++ "r"
  else if repr_printable n then String c EmptyString
  else BSL ++ "x" ++ hex2 n.

(** [str.__repr__]: single quotes, unless the string holds a single quote
    and no double quote. *)
Definition str_repr (s : string) : string :=
  let quote :=
    if contains_char "039"%char s && negb (contains_char "034"%char s)
    then "034"%char else "039"%char in
  String quote (flat_map_chars (repr_char quote) s) ++ String quote EmptyString.

(** [repr(o)]: the text, or the [ValueError] of the first integer inside
    that is beyond the digit limit. *)
Fixpoint py_repr (o : PyValue) : outcome string :=
  match o with
  | PNone => Returned "None"
  | PBool true => Returned "True"
  | PBool false => Returned "False"
  | PInt z => int_str z
  | PFloat f => Returned (float_repr f)
  | PStr s => Returned (str_repr s)
  | PList items =>
      (texts <- traverse py_repr items ;;
       Returned ("[" ++ join ", " texts ++ "]"))%outcome
  | PTuple items =>
      (texts <- traverse py_repr items ;;
       Returned (match texts with
                 | [text] => "(" ++ text ++ ",)"
                 | _ => "(" ++ join ", " texts ++ ")"
                 end))%outcome
  | PDict items =>
      (texts <-
         traverse
           (fun item : PyValue * PyValue =>
              let (key, value) := item in
              k <- py_repr key ;;
              v <- py_repr value ;;
              Returned (k ++ ": " ++ v))
           items ;;
       Returned ("{" ++ join ", " texts ++ "}"))%outcome
  | PObject _ text _ => Returned text
  end.

(** [str(o)], which is also what an f-string field [{o}] inserts. *)
Definition py_str (o : PyValue) : outcome string :=
  match o with
  | PStr s => Returned s
  | _ => py_repr o
  end.

(** ** Attribute lookup *)

Fixpoint assoc {V : Type} (k : string) (l : list (string * V)) : option V :=
  match l with
  | [] => None
  | (k', v) :: rest => if String.eqb k k' then Some v else assoc k rest
  end.

(** [o.name] for an instance attribute.  On the built-in types the lookup
    of a name they do not define is what is modelled: neither
    [inference_data] nor [network_inference_normalized] is defined by
    any of them. *)
Definition getattr (o : PyValue) (name : string) : outcome PyValue :=
  match o with
  | PObject cls _ attrs =>
      match assoc name attrs with
      | Some v => Returned v
      | None =>
          Raised (mkExc AttributeError
                    (SQ ++ cls ++ SQ ++ " object has no attribute " ++ SQ ++ name ++ SQ))
      end
  | _ =>
      Raised (mkExc AttributeError
                (SQ ++ type_name o ++ SQ ++ " object has no attribute " ++ SQ ++ name ++ SQ))
  end.

(** ** [json.dumps(obj, indent=n)]

    With [indent] given, the encoder separates items with a comma and a
    line break, keys from values with a colon and a space, and escapes every
    character outside the printable ASCII range ([ensure_ascii]). *)

Definition json_escape_char (c : ascii) : string :=
  let n := N_of_ascii c in
  if (n =? 34)%N then BSL ++ DQ
  else if (n =? 92)%N then BSL ++ BSL
  else if (n =? 10)%N then BSL ++ "n"
  else if (n =? 13)%N then BSL ++ "r"
  else if (n =? 9)%N then BSL ++ "t"
  else if (n =? 12)%N then BSL ++ "f"
  else if (n =? 8)%N then BSL ++ "b"
  else if ((32 <=? n) && (n <=? 126))%N then String c EmptyString
  else BSL ++ "u00" ++ hex2 n.

Definition encode_basestring_ascii (s : string) : string :=
  DQ ++ flat_map_chars json_escape_char s ++ DQ.

(** The text of a dictionary key, before it is quoted: a [str] as it is,
    [True], [False], [None] and numbers as their JSON literals; any other
    key is a [TypeError]. *)
Definition json_key (key : PyValue) : outcome string :=
  match key with
  | PStr s => Returned s
  | PFloat f => Returned (float_json f)
  | PBool true => Returned "true"
  | PBool false => Returned "false"
  | PNone => Returned "null"
  | PInt z => int_str z
  | _ =>
      Raised (mkExc TypeError
                ("keys must be str, int, float, bool or None, not " ++ type_name key))
  end.

(** The encoder at nesting depth [level]; the first element that cannot be
    encoded, in traversal order, raises: a [TypeError] for a value or a key
    of a type the encoder does not know, a [ValueError] for an integer
    beyond the digit limit.  A tuple is written as a list. *)
Fixpoint iterencode (indent level : nat) (o : PyValue) : outcome string :=
  let newline_indent := NL ++ spaces (indent * S level) in
  let closing := NL ++ spaces (indent * level) in
  match o with
  | PStr s => Returned (encode_basestring_ascii s)
  | PNone => Returned "null"
  | PBool true => Returned "true"
  | PBool false => Returned "false"
  | PInt z => int_str z
  | PFloat f => Returned (float_json f)
  | PList items | PTuple items =>
      match items with
      | [] => Returned "[]"
      | _ =>
          (chunks <- traverse (iterencode indent (S level)) items ;;
           Returned ("[" ++ newline_indent
                         ++ join ("," ++ newline_indent) chunks
                         ++ closing ++ "]"))%outcome
      end
  | PDict items =>
      match items with
      | [] => Returned "{}"
      | _ =>
          (chunks <-
             traverse
               (fun item : PyValue * PyValue =>
                  let (key, value) := item in
                  k <- json_key key ;;
                  chunk <- iterencode indent (S level) value ;;
                  Returned (encode_basestring_ascii k ++ ": " ++ chunk))
               items ;;
           Returned ("{" ++ newline_indent
                         ++ join ("," ++ newline_indent) chunks
                         ++ closing ++ "}"))%outcome
      end
  | PObject cls _ _ =>
      Raised (mkExc TypeError
                ("Object of type " ++ cls ++ " is not JSON serializable"))
  end.

Definition json_dumps (obj : PyValue) (indent : nat) : outcome string :=
  iterencode indent 0 obj.

(** The values of the types [json.dumps] encodes: it raises no [TypeError]
    on them.  Integers beyond the digit limit, which it refuses with a
    [ValueError], are counted in. *)
Definition json_key_ok (key : PyValue) : bool :=
  match key with
  | PStr _ | PBool _ | PNone | PInt _ | PFloat _ => true
  | _ => false
  end.

Fixpoint json_serializable (o : PyValue) : bool :=
  match o with
  | PNone | PBool _ | PInt _ | PFloat _ | PStr _ => true
  | PList items | PTuple items => forallb json_serializable items
  | PDict items =>
      forallb (fun kv => json_key_ok (fst kv) && json_serializable (snd kv)) items
  | PObject _ _ _ => false
  end.

(** ** Coroutines over the Allora client *)

(** The operations of [AlloraAPIClient] the actions call. *)
Inductive ClientCall : Type :=
| client_get_all_topics
| client_get_price_prediction (token timeframe : string).

(** The body of an [async def]: it has finished, by returning or by
    raising, or it is suspended at [await] on a client call and resumes
    with what the call ends in. *)
Inductive Coro (A : Type) : Type :=
| Finished (r : outcome A)
| Await (call : ClientCall) (resume : outcome PyValue -> Coro A).
Arguments Finished {A} r.
Arguments Await {A} call resume.

Definition ret {A : Type} (a : A) : Coro A := Finished (Returned a).

(** [await client.op(...)]: one suspension; an exception of the call is
    raised at the [await]. *)
Definition await (call : ClientCall) : Coro PyValue :=
  Await call (fun o => Finished o).

Fixpoint bind {A B : Type} (m : Coro A) (f : A -> Coro B) : Coro B :=
  match m with
  | Finished (Returned a) => f a
  | Finished (Raised e) => Finished (Raised e)
  | Finished (RaisedUnprintable cls from_str) =>
      Finished (RaisedUnprintable cls from_str)
  | Await call resume => Await call (fun o => bind (resume o) f)
  end.

Declare Scope coro_scope.
Delimit Scope coro_scope with coro.
Notation "x <- m ;; k" := (bind m (fun x => k))
  (at level 61, m at next level, right associativity) : coro_scope.

(** [try: body except Exception as e: handler e].  An exception that is
    not an instance of [Exception] passes through the statement, and so
    does whatever the handler raises. *)
Fixpoint try_except_Exception {A : Type}
    (body : Coro A) (handler : Caught -> Coro A) : Coro A :=
  match body with
  | Finished (Returned a) => Finished (Returned a)
  | Finished (Raised e) =>
      if isinstance_Exception e then handler (CaughtExc e) else Finished (Raised e)
  | Finished (RaisedUnprintable cls from_str) =>
      if issubclass_Exception cls
      then handler (CaughtUnprintable cls from_str)
      else Finished (RaisedUnprintable cls from_str)
  | Await call resume =>
      Await call (fun o => try_except_Exception (resume o) handler)
  end.

(** A client: a state and, for each operation, what the call ends in and
    the state it leaves. *)
Record Client : Type := mkClient {
  client_state : Type;
  respond : ClientCall -> client_state -> outcome PyValue * client_state
}.

(** What driving a coroutine to its end gives: its outcome, the client
    calls it made, in order, and the client's final state. *)
Record Run (A St : Type) : Type := mkRun {
  result : outcome A;
  calls : list ClientCall;
  final : St
}.
Arguments mkRun {A St} result calls final.
Arguments result {A St} r.
Arguments calls {A St} r.
Arguments final {A St} r.

Fixpoint run {A : Type} (client : Client) (m : Coro A) (s : client_state client)
    : Run A (client_state client) :=
  match m with
  | Finished r => mkRun r [] s
  | Await call resume =>
      let (o, s') := respond client call s in
      let r := run client (resume o) s' in
      mkRun (result r) (call :: calls r) (final r)
  end.

(** ** get_all_topics.py *)

Definition GET_ALL_TOPICS_PROMPT : string :=
  NL ++ "This tool will get all available topics from Allora Network." ++ NL.

Definition get_all_topics : Coro string :=
  try_except_Exception
    (topics <- await client_get_all_topics ;;
     topics_json <- Finished (json_dumps topics 4) ;;
     ret ("The available topics at Allora Network are:" ++ NL ++ topics_json))%coro
    (fun e =>
       (text <- Finished (str_caught e) ;;
        ret ("Error getting all topics: " ++ text))%coro).

(** ** get_price_prediction.py *)

Definition GET_PRICE_PREDICTION_PROMPT : string :=
  NL ++ "This tool will get the future price prediction for a given crypto asset from Allora Network."
     ++ NL ++ "It takes the crypto asset and timeframe as inputs." ++ NL.

Definition get_price_prediction (token timeframe : string) : Coro string :=
  try_except_Exception
    (price_prediction <- await (client_get_price_prediction token timeframe) ;;
     inference_data <- Finished (getattr price_prediction "inference_data") ;;
     network_inference_normalized <-
       Finished (getattr inference_data "network_inference_normalized") ;;
     text <- Finished (py_str network_inference_normalized) ;;
     ret ("The future price prediction for " ++ token ++ " in " ++ timeframe
            ++ " is " ++ text))%coro
    (fun e =>
       (text <- Finished (str_caught e) ;;
        ret ("Error getting price prediction: " ++ text))%coro).

(** ** pydantic models *)

(** The annotation of a field; the models of these files annotate with
    [str] only. *)
Inductive Annotation : Type :=
| Tstr.

(** [name: annotation = Field(default, description=...)].  [field_default]
    is [None] for [Field(...)], whose ellipsis marks the field required. *)
Record FieldInfo : Type := mkField {
  field_name : string;
  annotation : Annotation;
  field_default : option PyValue;
  field_description : string
}.

(** A subclass of [BaseModel]: its name and its fields, in the order of the
    class body. *)
Record ModelClass : Type := mkModel {
  model_name : string;
  model_fields : list FieldInfo
}.

(** One line of a [ValidationError]: the kind of error and the field. *)
Record ErrorDetail : Type := mkError { error_type : string; loc : string }.

Inductive validation (A : Type) : Type :=
| Valid (a : A)
| ValidationError (errors : list ErrorDetail).
Arguments Valid {A} a.
Arguments ValidationError {A} errors.

(** A [str] field takes a [str] as it is and rejects the other values of
    the model (pydantic 2 does not turn numbers into strings).  Bytes,
    which it would decode, are not among the values of the model. *)
Definition validate_value (a : Annotation) (fname : string) (v : PyValue)
    : PyValue + ErrorDetail :=
  match a, v with
  | Tstr, PStr _ => inl v
  | Tstr, _ => inr (mkError "string_type" fname)
  end.

Definition validate_field (f : FieldInfo) (kwargs : list (string * PyValue))
    : PyValue + ErrorDetail :=
  match assoc (field_name f) kwargs with
  | Some v => validate_value (annotation f) (field_name f) v
  | None =>
      match field_default f with
      | Some d => inl d
      | None => inr (mkError "missing" (field_name f))
      end
  end.

(** Every field is validated, and the errors of all of them are collected;
    keyword arguments that name no field are ignored. *)
Fixpoint validate_fields (fields : list FieldInfo) (kwargs : list (string * PyValue))
    : list (string * PyValue) * list ErrorDetail :=
  match fields with
  | [] => ([], [])
  | f :: rest =>
      let (values, errors) := validate_fields rest kwargs in
      match validate_field f kwargs with
      | inl v => ((field_name f, v) :: values, errors)
      | inr e => (values, e :: errors)
      end
  end.

(** The call of a model class with keyword arguments: the instance, given
    by the values of its fields, or the [ValidationError] the constructor
    raises. *)
Definition model_init (cls : ModelClass) (kwargs : list (string * PyValue))
    : validation (list (string * PyValue)) :=
  let (values, errors) := validate_fields (model_fields cls) kwargs in
  match errors with
  | [] => Valid values
  | _ => ValidationError errors
  end.

Definition GetPricePredictionInput : ModelClass :=
  mkModel "GetPricePredictionInput"
    [ mkField "token" Tstr None
        "The crypto asset to get the price prediction for, e.g. `BTC`";
      mkField "timeframe" Tstr None
        "The timeframe to get the price prediction for, e.g. `5m` or `8h`" ].

(** ** The actions and their registry *)

(** What the [func] field of an action holds: one of the two handlers, each
    awaiting its client and, for the second, the two validated arguments. *)
Inductive Callable : Type :=
| Func_client (f : Coro string)
| Func_client_token_timeframe (f : string -> string -> Coro string).

(** Modelled from the spec: [action.py], the module that defines the base
    class [AlloraAction], is not among the sources.  An action carries a
    name, a description, an optional input schema and a handler; the class
    of an instance is kept as [class_of]. *)
Record AlloraAction : Type := mkAction {
  class_of : string;
  name : string;
  description : string;
  args_schema : option ModelClass;
  func : Callable
}.

(** A subclass of [AlloraAction] whose body gives each of the four fields
    its value. *)
Record ActionClass : Type := mkActionClass {
  class_name : string;
  class_field_name : string;
  class_field_description : string;
  class_field_args_schema : option ModelClass;
  class_field_func : Callable
}.

(** [action()]: the instance that carries the values of the class body. *)
Definition new (action : ActionClass) : AlloraAction :=
  mkAction (class_name action) (class_field_name action)
           (class_field_description action) (class_field_args_schema action)
           (class_field_func action).

Definition GetAllTopicsAction : ActionClass :=
  mkActionClass "GetAllTopicsAction"
    "get_all_topics" GET_ALL_TOPICS_PROMPT None (Func_client get_all_topics).

Definition GetPricePredictionAction : ActionClass :=
  mkActionClass "GetPricePredictionAction"
    "get_price_prediction" GET_PRICE_PREDICTION_PROMPT (Some GetPricePredictionInput)
    (Func_client_token_timeframe get_price_prediction).

(** [get_all_allora_actions], over [AlloraAction.__subclasses__()]: the
    direct subclasses defined so far, in the order of their definition. *)
Definition get_all_allora_actions (subclasses : list ActionClass) : list AlloraAction :=
  fold_left (fun actions action => (actions ++ [new action])%list) subclasses [].

(** Modelled from the spec: [action.py] defines the base class and no
    action of its own, so that [AlloraAction] has no subclass once it is
    imported. *)
Definition import_action : list ActionClass := [].

(** The class statements of the two modules [__init__.py] imports next;
    each adds its class to the subclasses of [AlloraAction]. *)
Definition import_get_all_topics (subclasses : list ActionClass) : list ActionClass :=
  (subclasses ++ [GetAllTopicsAction])%list.

Definition import_get_price_prediction (subclasses : list ActionClass)
    : list ActionClass :=
  (subclasses ++ [GetPricePredictionAction])%list.

(** [ALLORA_ACTIONS = get_all_allora_actions()], evaluated by
    [__init__.py] after its three imports. *)
Definition ALLORA_ACTIONS : list AlloraAction :=
  get_all_allora_actions
    (import_get_price_prediction (import_get_all_topics import_action)).

(** ** Clients for the examples *)

(** A client without state that answers each call as [answer] says, the way
    a mock with a return value or a side effect does. *)
Definition mock_client (answer : ClientCall -> outcome PyValue) : Client :=
  mkClient unit (fun call s => (answer call, s)).

(** A client that counts the calls it receives and answers the [n]-th one
    with [answer n]. *)
Definition counting_client (answer : nat -> ClientCall -> outcome PyValue) : Client :=
  mkClient nat (fun call n => (answer n call, S n)).

(** The prediction object of the tests: [inference_data] holds an object
    whose [network_inference_normalized] is [v]. *)
Definition mock_inference (v : PyValue) : PyValue :=
  PObject "Mock" "<Mock>"
    [("inference_data",
      PObject "Mock" "<Mock>" [("network_inference_normalized", v)])].

Definition client_returning (v : PyValue) : Client :=
  mock_client (fun _ => Returned v).

Definition client_raising (e : PyExc) : Client :=
  mock_client (fun _ => Raised e).

(** Two topics as records of their fields. *)
Definition example_topics : list PyValue :=
  [ PDict [(PStr "topic_id", PInt 1); (PStr "topic_name", PStr "BTC 5min Prediction")];
    PDict [(PStr "topic_id", PInt 2); (PStr "topic_name", PStr "ETH 10min Prediction")] ].

(** What awaiting a mocked operation without a configured return value
    gives: a fresh mock object, which [json.dumps] does not encode. *)
Definition example_mock_object : PyValue :=
  PObject "MagicMock" "<MagicMock name='mock.get_all_topics()'>" [].

(** A client whose calls raise an exception of class [cls] whose [__str__]
    raises [from_str]. *)
Definition client_raising_unprintable (cls : ExcClass) (from_str : PyExc) : Client :=
  mock_client (fun _ => RaisedUnprintable cls from_str).


(** ** Topic records *)

(** The value of a field of a record: [None], a boolean, an integer within
    the digit limit, a float or a string. *)
Definition is_scalar (v : PyValue) : bool :=
  match v with
  | PNone | PBool _ | PFloat _ | PStr _ => true
  | PInt z => Nat.leb (int_digits z) int_max_str_digits
  | _ => false
  end.

(** The text of a scalar as [str] and an f-string field give it, written
    case by case. *)
Definition scalar_str_text (v : PyValue) : string :=
  match v with
  | PNone => "None"
  | PBool true => "True"
  | PBool false => "False"
  | PInt z => int_repr z
  | PFloat f => float_repr f
  | PStr s => s
  | _ => EmptyString
  end.






(** ** Printable ASCII text *)

(** The line feed and the characters from the space to the tilde: what
    [json.dumps] leaves in its output when [ensure_ascii] holds. *)
Definition ascii_printable (c : ascii) : bool :=
  let n := N_of_ascii c in
  ((n =? 10) || ((32 <=? n) && (n <=? 126)))%N.

Fixpoint all_chars (p : ascii -> bool) (s : string) : bool :=
  match s with
  | EmptyString => true
  | String c rest => p c && all_chars p rest
  end.

(** * Properties *)

(** Unfolds a handler up to its [await] and resumes it with the answer
    [Hcall] gives for the call. *)
Ltac resume_with Hcall :=
  unfold get_all_topics, get_price_prediction;
  cbn [run bind try_except_Exception await ret];
  rewrite Hcall;
  cbn [run bind try_except_Exception await ret result calls final].

(** ** The error monad *)

Lemma traverse_returns {A B : Type} (f : A -> outcome B) (l : list A) :
  Forall (fun x => exists y, f x = Returned y) l ->
  exists ys, traverse f l = Returned ys.
Proof.
  induction 1 as [|x rest [y Hy] _ [ys Hys]]; cbn.
  - now exists [].
  - rewrite Hy; cbn. rewrite Hys; cbn. now exists (y :: ys).
Qed.

Lemma traverse_raises {A B : Type} (f : A -> outcome B) (l : list A) (e : PyExc) :
  traverse f l = Raised e -> exists x, In x l /\ f x = Raised e.
Proof.
  induction l as [|x rest IH]; cbn; [discriminate|].
  destruct (f x) as [y|e'|c e'] eqn:Hx; cbn.
  - destruct (traverse f rest) as [ys|e''|c e''] eqn:Hrest; cbn; try discriminate.
    intros [= <-]. destruct (IH eq_refl) as (x' & Hin & Hx').
    exists x'. auto.
  - intros [= <-]. exists x. auto.
  - discriminate.
Qed.

Lemma traverse_unprintable {A B : Type} (f : A -> outcome B) (l : list A)
    (cls : ExcClass) (e : PyExc) :
  traverse f l = RaisedUnprintable cls e ->
  exists x, In x l /\ f x = RaisedUnprintable cls e.
Proof.
  induction l as [|x rest IH]; cbn; [discriminate|].
  destruct (f x) as [y|e'|c e'] eqn:Hx; cbn.
  - destruct (traverse f rest) as [ys|e''|c e''] eqn:Hrest; cbn; try discriminate.
    intros [= <- <-]. destruct (IH eq_refl) as (x' & Hin & Hx').
    exists x'. auto.
  - discriminate.
  - intros [= <- <-]. exists x. auto.
Qed.

Lemma traverse_returned {A B : Type} (f : A -> outcome B) (l : list A) (ys : list B) :
  traverse f l = Returned ys -> Forall (fun x => exists y, f x = Returned y) l.
Proof.
  revert ys. induction l as [|x rest IH]; intros ys; cbn; [constructor|].
  destruct (f x) as [y|e|c e] eqn:Hx; cbn; try discriminate.
  destruct (traverse f rest) as [ys'|e|c e] eqn:Hrest; cbn; try discriminate.
  intros _. constructor; eauto.
Qed.

(** ** Integers as text *)

Lemma int_str_raises (z : Z) (e : PyExc) :
  int_str z = Raised e -> e = int_str_error.
Proof.
  unfold int_str. destruct (Nat.leb _ _); [discriminate | now intros [= <-]].
Qed.

Lemma int_str_printable (z : Z) (cls : ExcClass) (e : PyExc) :
  int_str z <> RaisedUnprintable cls e.
Proof. unfold int_str. destruct (Nat.leb _ _); discriminate. Qed.

(** ** [json.dumps] *)

Lemma json_key_raises (key : PyValue) (e : PyExc) :
  json_key key = Raised e -> isinstance_Exception e = true.
Proof.
  destruct key as [| [] | z | | | | | |]; cbn; try discriminate;
    try (now intros [= <-]).
  intros H. now rewrite (int_str_raises _ _ H).
Qed.

Lemma json_key_printable (key : PyValue) (cls : ExcClass) (e : PyExc) :
  json_key key <> RaisedUnprintable cls e.
Proof.
  destruct key as [| [] | z | | | | | |]; cbn; try discriminate.
  apply int_str_printable.
Qed.

(** Whatever the encoder raises is an instance of [Exception] with a
    text. *)
Lemma iterencode_raises (indent : nat) (o : PyValue) :
  forall level e, iterencode indent level o = Raised e -> isinstance_Exception e = true.
Proof.
  induction o as [| b | z | f | s | items IH | items IH | items IH | cls text attrs _]
    using PyValue_ind; intros level e.
  - discriminate.
  - destruct b; discriminate.
  - cbn. intros H. now rewrite (int_str_raises _ _ H).
  - discriminate.
  - discriminate.
  - destruct items as [|x rest]; [discriminate|].
    cbn [iterencode].
    destruct (traverse _ _) as [chunks|e'|c e'] eqn:Ht; cbn; try discriminate.
    intros [= <-]. apply traverse_raises in Ht as (y & Hy & He).
    rewrite Forall_forall in IH. eapply IH; eauto.
  - destruct items as [|x rest]; [discriminate|].
    cbn [iterencode].
    destruct (traverse _ _) as [chunks|e'|c e'] eqn:Ht; cbn; try discriminate.
    intros [= <-]. apply traverse_raises in Ht as (y & Hy & He).
    rewrite Forall_forall in IH. eapply IH; eauto.
  - destruct items as [|x rest]; [discriminate|].
    cbn [iterencode].
    destruct (traverse _ _) as [chunks|e'|c e'] eqn:Ht; cbn; try discriminate.
    intros [= <-]. apply traverse_raises in Ht as ([k v] & Hy & He).
    rewrite Forall_forall in IH. specialize (IH _ Hy). cbn in IH.
    destruct (json_key k) as [ks|ek|c ek] eqn:Hk; cbn in He; try discriminate.
    + destruct (iterencode indent (S level) v) as [cv|ev|c ev] eqn:Hv; cbn in He;
        try discriminate.
      injection He as <-. destruct IH as [_ IHv]. eapply IHv; eauto.
    + injection He as <-. eapply json_key_raises; eauto.
  - cbn. now intros [= <-].
Qed.

Lemma iterencode_printable (indent : nat) (o : PyValue) :
  forall level cls e, iterencode indent level o <> RaisedUnprintable cls e.
Proof.
  induction o as [| b | z | f | s | items IH | items IH | items IH | cls text attrs _]
    using PyValue_ind; intros level c e.
  - discriminate.
  - destruct b; discriminate.
  - apply int_str_printable.
  - discriminate.
  - discriminate.
  - destruct items as [|x rest]; [discriminate|].
    cbn [iterencode].
    destruct (traverse _ _) as [chunks|e'|c' e'] eqn:Ht; cbn; try discriminate.
    intros [= <- <-]. apply traverse_unprintable in Ht as (y & Hy & He).
    rewrite Forall_forall in IH. eapply IH; eauto.
  - destruct items as [|x rest]; [discriminate|].
    cbn [iterencode].
    destruct (traverse _ _) as [chunks|e'|c' e'] eqn:Ht; cbn; try discriminate.
    intros [= <- <-]. apply traverse_unprintable in Ht as (y & Hy & He).
    rewrite Forall_forall in IH. eapply IH; eauto.
  - destruct items as [|x rest]; [discriminate|].
    cbn [iterencode].
    destruct (traverse _ _) as [chunks|e'|c' e'] eqn:Ht; cbn; try discriminate.
    intros [= <- <-]. apply traverse_unprintable in Ht as ([k v] & Hy & He).
    rewrite Forall_forall in IH. specialize (IH _ Hy). cbn in IH.
    destruct (json_key k) as [ks|ek|ck ek] eqn:Hk; cbn in He; try discriminate.
    + destruct (iterencode indent (S level) v) as [cv|ev|cv' ev] eqn:Hv; cbn in He;
        try discriminate.
      injection He as <- <-. destruct IH as [_ IHv]. eapply IHv; eauto.
    + injection He as <- <-. eapply json_key_printable; eauto.
  - discriminate.
Qed.

(** Only values of the types the encoder knows are encoded. *)
Lemma iterencode_returned (indent : nat) (o : PyValue) :
  forall level s, iterencode indent level o = Returned s -> json_serializable o = true.
Proof.
  induction o as [| b | z | f | s | items IH | items IH | items IH | cls text attrs _]
    using PyValue_ind; intros level r; try reflexivity.
  - destruct items as [|x rest]; [reflexivity|].
    cbn [iterencode json_serializable].
    destruct (traverse _ _) as [chunks|e|c e] eqn:Ht; cbn [obind]; try discriminate.
    intros _. apply traverse_returned in Ht.
    rewrite forallb_forall. rewrite Forall_forall in IH, Ht.
    intros y Hy. destruct (Ht _ Hy) as [c Hc]. eapply IH; eauto.
  - destruct items as [|x rest]; [reflexivity|].
    cbn [iterencode json_serializable].
    destruct (traverse _ _) as [chunks|e|c e] eqn:Ht; cbn [obind]; try discriminate.
    intros _. apply traverse_returned in Ht.
    rewrite forallb_forall. rewrite Forall_forall in IH, Ht.
    intros y Hy. destruct (Ht _ Hy) as [c Hc]. eapply IH; eauto.
  - destruct items as [|x rest]; [reflexivity|].
    cbn [iterencode json_serializable].
    destruct (traverse _ _) as [chunks|e|c e] eqn:Ht; cbn [obind]; try discriminate.
    intros _. apply traverse_returned in Ht.
    rewrite forallb_forall. rewrite Forall_forall in IH, Ht.
    intros [k v] Hy. destruct (Ht _ Hy) as [c Hc]. specialize (IH _ Hy).
    cbn in IH, Hc |- *. destruct IH as [_ IHv].
    destruct (json_key k) as [ks|ek|c' ek] eqn:Hk; cbn in Hc; try discriminate.
    destruct (iterencode indent (S level) v) as [cv|ev|c' ev] eqn:Hv; cbn in Hc;
      try discriminate.
    apply andb_true_iff. split; [|eapply IHv; eauto].
    destruct k as [| [] | | | | | | |]; cbn in Hk |- *; try reflexivity; discriminate.
  - discriminate.
Qed.

(** [json.dumps] raises on every value that holds one of a type it does not
    know, and what it raises is an instance of [Exception] with a text. *)
Lemma json_dumps_not_serializable (obj : PyValue) (indent : nat) :
  json_serializable obj = false ->
  exists e, json_dumps obj indent = Raised e /\ isinstance_Exception e = true.
Proof.
  intros Hno. unfold json_dumps.
  destruct (iterencode indent 0 obj) as [s|e|c e] eqn:H.
  - apply iterencode_returned in H. congruence.
  - exists e. split; [reflexivity|]. eapply iterencode_raises; eauto.
  - now apply iterencode_printable in H.
Qed.

Lemma json_dumps_raises (obj : PyValue) (indent : nat) (e : PyExc) :
  json_dumps obj indent = Raised e -> isinstance_Exception e = true.
Proof. apply iterencode_raises. Qed.

Lemma json_dumps_printable (obj : PyValue) (indent : nat) (cls : ExcClass) (e : PyExc) :
  json_dumps obj indent <> RaisedUnprintable cls e.
Proof. apply iterencode_printable. Qed.

(** ** Driving the handlers *)

(** Splits on what the steps after the [await] end in, one after the
    other. *)
Ltac step_cases :=
  repeat (cbn [run bind try_except_Exception ret result calls final fst snd str_caught];
          match goal with
          | |- context [match ?x with
                        | Returned _ => _
                        | Raised _ => _
                        | RaisedUnprintable _ _ => _
                        end] => destruct x
          | |- context [if ?b then _ else _] => destruct b
          end);
  cbn [run bind try_except_Exception ret result calls final fst snd str_caught].

Lemma get_all_topics_run (client : Client) (s : client_state client) :
  calls (run client get_all_topics s) = [client_get_all_topics] /\
  final (run client get_all_topics s) = snd (respond client client_get_all_topics s).
Proof.
  unfold get_all_topics. cbn [run bind try_except_Exception await ret].
  destruct (respond client client_get_all_topics s) as [o s'].
  cbn [calls final snd]. step_cases; split; reflexivity.
Qed.

Lemma get_price_prediction_run
    (client : Client) (s : client_state client) (token timeframe : string) :
  calls (run client (get_price_prediction token timeframe) s)
    = [client_get_price_prediction token timeframe] /\
  final (run client (get_price_prediction token timeframe) s)
    = snd (respond client (client_get_price_prediction token timeframe) s).
Proof.
  unfold get_price_prediction. cbn [run bind try_except_Exception await ret].
  destruct (respond client (client_get_price_prediction token timeframe) s) as [o s'].
  cbn [calls final snd]. step_cases; split; reflexivity.
Qed.

Lemma get_all_topics_calls (client : Client) (s : client_state client) :
  calls (run client get_all_topics s) = [client_get_all_topics].
Proof. apply get_all_topics_run. Qed.

(** ** Attribute lookup and formatting *)

(** Looking up an attribute raises nothing but an [AttributeError]. *)
Lemma getattr_raises (o : PyValue) (attr : string) (e : PyExc) :
  getattr o attr = Raised e -> isinstance_Exception e = true.
Proof.
  destruct o as [| | | | | | | |cls text attrs]; cbn; try (now intros [= <-]).
  destruct (assoc attr attrs); [discriminate | now intros [= <-]].
Qed.

Lemma getattr_printable (o : PyValue) (attr : string) (cls : ExcClass) (e : PyExc) :
  getattr o attr <> RaisedUnprintable cls e.
Proof.
  destruct o as [| | | | | | | |c text attrs]; cbn; try discriminate.
  destruct (assoc attr attrs); discriminate.
Qed.

(** [repr] raises nothing but the [ValueError] of an integer beyond the
    digit limit. *)
Lemma py_repr_raises (o : PyValue) (e : PyExc) :
  py_repr o = Raised e -> e = int_str_error.
Proof.
  revert e.
  induction o as [| b | z | f | s | items IH | items IH | items IH | cls text attrs _]
    using PyValue_ind; intros e; cbn [py_repr]; try discriminate.
  - destruct b; discriminate.
  - apply int_str_raises.
  - destruct (traverse py_repr items) as [texts|e'|c e'] eqn:Ht; cbn; try discriminate.
    intros [= <-]. apply traverse_raises in Ht as (y & Hy & He).
    rewrite Forall_forall in IH. eapply IH; eauto.
  - destruct (traverse py_repr items) as [texts|e'|c e'] eqn:Ht; cbn; try discriminate.
    intros [= <-]. apply traverse_raises in Ht as (y & Hy & He).
    rewrite Forall_forall in IH. eapply IH; eauto.
  - destruct (traverse _ items) as [texts|e'|c e'] eqn:Ht; cbn; try discriminate.
    intros [= <-]. apply traverse_raises in Ht as ([k v] & Hy & He).
    rewrite Forall_forall in IH. destruct (IH _ Hy) as [IHk IHv]. cbn in IHk, IHv.
    destruct (py_repr k) as [tk|ek|ck ek] eqn:Hk; cbn in He; try discriminate.
    + destruct (py_repr v) as [tv|ev|cv ev] eqn:Hv; cbn in He; try discriminate.
      injection He as <-. now apply IHv.
    + injection He as <-. now apply IHk.
Qed.

Lemma py_repr_printable (o : PyValue) (cls : ExcClass) (e : PyExc) :
  py_repr o <> RaisedUnprintable cls e.
Proof.
  revert cls e.
  induction o as [| b | z | f | s | items IH | items IH | items IH | c text attrs _]
    using PyValue_ind; intros cls e; cbn [py_repr]; try discriminate.
  - destruct b; discriminate.
  - apply int_str_printable.
  - destruct (traverse py_repr items) as [texts|e'|c e'] eqn:Ht; cbn; try discriminate.
    intros [= <- <-]. apply traverse_unprintable in Ht as (y & Hy & He).
    rewrite Forall_forall in IH. eapply IH; eauto.
  - destruct (traverse py_repr items) as [texts|e'|c e'] eqn:Ht; cbn; try discriminate.
    intros [= <- <-]. apply traverse_unprintable in Ht as (y & Hy & He).
    rewrite Forall_forall in IH. eapply IH; eauto.
  - destruct (traverse _ items) as [texts|e'|c e'] eqn:Ht; cbn; try discriminate.
    intros [= <- <-]. apply traverse_unprintable in Ht as ([k v] & Hy & He).
    rewrite Forall_forall in IH. destruct (IH _ Hy) as [IHk IHv]. cbn in IHk, IHv.
    destruct (py_repr k) as [tk|ek|ck ek] eqn:Hk; cbn in He; try discriminate.
    + destruct (py_repr v) as [tv|ev|cv ev] eqn:Hv; cbn in He; try discriminate.
      injection He as <- <-. eapply IHv; eauto.
    + injection He as <- <-. eapply IHk; eauto.
Qed.

Lemma py_str_raises (o : PyValue) (e : PyExc) :
  py_str o = Raised e -> isinstance_Exception e = true.
Proof.
  destruct o; cbn [py_str]; try discriminate;
    intros H; apply py_repr_raises in H; now subst e.
Qed.

Lemma py_str_printable (o : PyValue) (cls : ExcClass) (e : PyExc) :
  py_str o <> RaisedUnprintable cls e.
Proof.
  destruct o; cbn [py_str]; try discriminate; apply py_repr_printable.
Qed.

(** ** get_price_prediction *)

(** C1.  When the client's price-prediction call returns a prediction whose
    [inference_data.network_inference_normalized] is the string [v], the
    handler returns exactly the sentence built from the token, the
    timeframe and [v]. *)
Theorem get_price_prediction_success
    (client : Client) (s s' : client_state client) (token timeframe : string)
    (price_prediction inference_data : PyValue) (v : string) :
  respond client (client_get_price_prediction token timeframe) s
    = (Returned price_prediction, s') ->
  getattr price_prediction "inference_data" = Returned inference_data ->
  getattr inference_data "network_inference_normalized" = Returned (PStr v) ->
  result (run client (get_price_prediction token timeframe) s)
    = Returned ("The future price prediction for " ++ token ++ " in " ++ timeframe
                  ++ " is " ++ v).
Proof.
  intros Hcall Hdata Hv. resume_with Hcall.
  rewrite Hdata. cbn [bind]. rewrite Hv. reflexivity.
Qed.

Lemma get_price_prediction_success_BTC_5m :
  getattr (mock_inference (PStr "50000.00")) "inference_data"
    = Returned (PObject "Mock" "<Mock>"
                  [("network_inference_normalized", PStr "50000.00")]) /\
  result (run (client_returning (mock_inference (PStr "50000.00")))
              (get_price_prediction "BTC" "5m") tt)
    = Returned "The future price prediction for BTC in 5m is 50000.00".
Proof.
  split; [reflexivity|].
  exact (get_price_prediction_success
           (client_returning (mock_inference (PStr "50000.00")))
           tt tt "BTC" "5m" _ _ "50000.00" eq_refl eq_refl eq_refl).
Defined.

(** The same for every scalar: [None], a boolean, an integer within the
    digit limit, a float or a string is inserted as [str] prints it. *)
Lemma get_price_prediction_success_scalar
    (client : Client) (s s' : client_state client) (token timeframe : string)
    (price_prediction inference_data v : PyValue) :
  respond client (client_get_price_prediction token timeframe) s
    = (Returned price_prediction, s') ->
  getattr price_prediction "inference_data" = Returned inference_data ->
  getattr inference_data "network_inference_normalized" = Returned v ->
  is_scalar v = true ->
  result (run client (get_price_prediction token timeframe) s)
    = Returned ("The future price prediction for " ++ token ++ " in " ++ timeframe
                  ++ " is " ++ scalar_str_text v).
Proof.
  intros Hcall Hdata Hv Hscalar. resume_with Hcall.
  rewrite Hdata. cbn [bind]. rewrite Hv. cbn [bind].
  destruct v as [| [] | z | f | text | | | |]; try discriminate; try reflexivity.
  cbn [py_str py_repr]. unfold int_str. cbn [is_scalar] in Hscalar.
  rewrite Hscalar. reflexivity.
Qed.

(** A value that is a number is inserted as [str] prints it. *)
Example get_price_prediction_int_text :
  result (run (client_returning (mock_inference (PInt 50000)))
              (get_price_prediction "BTC" "5m") tt)
  = Returned "The future price prediction for BTC in 5m is 50000".
Proof. reflexivity. Qed.

Example get_price_prediction_float_text :
  result (run (client_returning
                 (mock_inference (PFloat (FFinite [F5; F0; F0; F0; F0; Fdot; F2; F5]))))
              (get_price_prediction "ETH" "8h") tt)
  = Returned "The future price prediction for ETH in 8h is 50000.25".
Proof. reflexivity. Qed.

(** An integer beyond the digit limit cannot be printed: the [ValueError]
    of the formatting is caught like any other. *)
Lemma get_price_prediction_int_beyond_limit
    (client : Client) (s s' : client_state client) (token timeframe : string)
    (z : Z) :
  respond client (client_get_price_prediction token timeframe) s
    = (Returned (mock_inference (PInt z)), s') ->
  Nat.leb (int_digits z) int_max_str_digits = false ->
  result (run client (get_price_prediction token timeframe) s)
    = Returned ("Error getting price prediction: " ++ exc_str int_str_error).
Proof.
  intros Hcall Hbig. resume_with Hcall. cbn [getattr mock_inference assoc String.eqb].
  cbn. unfold int_str. rewrite Hbig. reflexivity.
Qed.

(** C2.  When the client's price-prediction call raises an error, an
    instance of [Exception], whose text is [m], the handler returns
    ["Error getting price prediction: "] followed by [m] and raises
    nothing. *)
Theorem get_price_prediction_error
    (client : Client) (s s' : client_state client) (token timeframe : string)
    (e : PyExc) :
  respond client (client_get_price_prediction token timeframe) s = (Raised e, s') ->
  isinstance_Exception e = true ->
  result (run client (get_price_prediction token timeframe) s)
    = Returned ("Error getting price prediction: " ++ exc_str e).
Proof.
  intros Hcall He. resume_with Hcall. now rewrite He.
Qed.

Lemma get_price_prediction_error_API_error :
  isinstance_Exception (mkExc Exception "API error") = true /\
  result (run (client_raising (mkExc Exception "API error"))
              (get_price_prediction "BTC" "5m") tt)
    = Returned "Error getting price prediction: API error".
Proof.
  split; [reflexivity|].
  exact (get_price_prediction_error
           (client_raising (mkExc Exception "API error"))
           tt tt "BTC" "5m" (mkExc Exception "API error") eq_refl eq_refl).
Defined.

(** C9.  Whatever the client answers, one run of the handler makes one
    client call, the price-prediction call on the token and the timeframe it
    received, in this order, and no other. *)
Theorem get_price_prediction_calls_once
    (client : Client) (s : client_state client) (token timeframe : string) :
  calls (run client (get_price_prediction token timeframe) s)
    = [client_get_price_prediction token timeframe].
Proof. apply get_price_prediction_run. Qed.

(** A client that counts its calls has received one when the handler
    returns. *)
Example get_price_prediction_one_call_counted :
  final (run (counting_client (fun _ _ => Returned (mock_inference (PStr "50000.00"))))
             (get_price_prediction "BTC" "5m") 0) = 1
  /\ calls (run (counting_client (fun _ _ => Returned (mock_inference (PStr "50000.00"))))
              (get_price_prediction "BTC" "5m") 0)
     = [client_get_price_prediction "BTC" "5m"].
Proof. split; reflexivity. Qed.

(** ** The text of a list of records *)








(** ** get_all_topics *)




(** The text the handler returns on the two topics of [example_topics]. *)
Example get_all_topics_example_text :
  result (run (client_returning (PList example_topics)) get_all_topics tt)
  = Returned
      ("The available topics at Allora Network are:" ++ NL
       ++ "[" ++ NL
       ++ "    {" ++ NL
       ++ "        " ++ DQ ++ "topic_id" ++ DQ ++ ": 1," ++ NL
       ++ "        " ++ DQ ++ "topic_name" ++ DQ ++ ": "
                     ++ DQ ++ "BTC 5min Prediction" ++ DQ ++ NL
       ++ "    }," ++ NL
       ++ "    {" ++ NL
       ++ "        " ++ DQ ++ "topic_id" ++ DQ ++ ": 2," ++ NL
       ++ "        " ++ DQ ++ "topic_name" ++ DQ ++ ": "
                     ++ DQ ++ "ETH 10min Prediction" ++ DQ ++ NL
       ++ "    }" ++ NL
       ++ "]").
Proof. reflexivity. Qed.

(** A record with a float, a boolean, [None] and a string that needs
    escaping. *)
Example get_all_topics_mixed_record_text :
  result (run (client_returning
                 (PList [PDict [(PStr "total_staked_allo",
                                 PFloat (FFinite [F1; F2; Fdot; F5]));
                                (PStr "is_active", PBool true);
                                (PStr "description", PNone);
                                (PStr "loss_method", PStr (chr 233 ++ DQ ++ "x"))]]))
              get_all_topics tt)
  = Returned
      ("The available topics at Allora Network are:" ++ NL
       ++ "[" ++ NL
       ++ "    {" ++ NL
       ++ "        " ++ DQ ++ "total_staked_allo" ++ DQ ++ ": 12.5," ++ NL
       ++ "        " ++ DQ ++ "is_active" ++ DQ ++ ": true," ++ NL
       ++ "        " ++ DQ ++ "description" ++ DQ ++ ": null," ++ NL
       ++ "        " ++ DQ ++ "loss_method" ++ DQ ++ ": "
                     ++ DQ ++ BSL ++ "u00e9" ++ BSL ++ DQ ++ "x" ++ DQ ++ NL
       ++ "    }" ++ NL
       ++ "]").
Proof. reflexivity. Qed.

(** An empty list of topics is rendered on one line. *)
Example get_all_topics_no_topics_text :
  result (run (client_returning (PList [])) get_all_topics tt)
  = Returned ("The available topics at Allora Network are:" ++ NL ++ "[]").
Proof. reflexivity. Qed.

(** An integer beyond the digit limit in a record makes [json.dumps] raise
    a [ValueError], which the handler turns into the error text. *)
Lemma get_all_topics_int_beyond_limit
    (client : Client) (s s' : client_state client) (z : Z) :
  respond client client_get_all_topics s
    = (Returned (PList [PDict [(PStr "topic_id", PInt z)]]), s') ->
  Nat.leb (int_digits z) int_max_str_digits = false ->
  result (run client get_all_topics s)
    = Returned ("Error getting all topics: " ++ exc_str int_str_error).
Proof.
  intros Hcall Hbig. resume_with Hcall.
  unfold json_dumps. cbn [iterencode traverse json_key obind].
  unfold int_str. rewrite Hbig. reflexivity.
Qed.

(** C5.  When the client's all-topics call raises an error, an instance of
    [Exception], whose text is [m], the handler returns
    ["Error getting all topics: "] followed by [m]. *)
Theorem get_all_topics_error
    (client : Client) (s s' : client_state client) (e : PyExc) :
  respond client client_get_all_topics s = (Raised e, s') ->
  isinstance_Exception e = true ->
  result (run client get_all_topics s)
    = Returned ("Error getting all topics: " ++ exc_str e).
Proof.
  intros Hcall He. resume_with Hcall. now rewrite He.
Qed.

Lemma get_all_topics_error_boom :
  isinstance_Exception (mkExc Exception "boom") = true /\
  result (run (client_raising (mkExc Exception "boom")) get_all_topics tt)
    = Returned "Error getting all topics: boom".
Proof.
  split; [reflexivity|].
  exact (get_all_topics_error (client_raising (mkExc Exception "boom")) tt tt
           (mkExc Exception "boom") eq_refl eq_refl).
Defined.

(** C10.  When the client's all-topics call returns a value that
    [json.dumps] cannot encode, the handler returns
    ["Error getting all topics: "] followed by the text of the error
    [json.dumps] raised: the [except] clause covers the encoding too. *)
Theorem get_all_topics_not_serializable
    (client : Client) (s s' : client_state client) (topics : PyValue) :
  respond client client_get_all_topics s = (Returned topics, s') ->
  json_serializable topics = false ->
  exists e,
    json_dumps topics 4 = Raised e /\
    result (run client get_all_topics s)
      = Returned ("Error getting all topics: " ++ exc_str e).
Proof.
  intros Hcall Hno.
  destruct (json_dumps_not_serializable topics 4 Hno) as (e & Hjson & He).
  exists e. split; [exact Hjson|].
  resume_with Hcall. rewrite Hjson. cbn [bind try_except_Exception].
  rewrite He. reflexivity.
Qed.

Lemma get_all_topics_not_serializable_example :
  json_serializable example_mock_object = false /\
  exists e,
    json_dumps example_mock_object 4 = Raised e /\
    result (run (client_returning example_mock_object) get_all_topics tt)
      = Returned ("Error getting all topics: " ++ exc_str e).
Proof.
  split; [reflexivity|].
  exact (get_all_topics_not_serializable
           (client_returning example_mock_object) tt tt
           example_mock_object eq_refl eq_refl).
Defined.

(** The text the handler returns on such an object. *)
Example get_all_topics_not_serializable_text :
  result (run (client_returning example_mock_object) get_all_topics tt)
  = Returned
      "Error getting all topics: Object of type MagicMock is not JSON serializable".
Proof. reflexivity. Qed.

(** A dictionary key that is neither a string, a number, a boolean nor
    [None] is reported the same way. *)
Example get_all_topics_bad_key_text :
  result (run (client_returning (PList [PDict [(example_mock_object, PInt 1)]]))
              get_all_topics tt)
  = Returned
      "Error getting all topics: keys must be str, int, float, bool or None, not MagicMock".
Proof. reflexivity. Qed.

(** ** Both handlers *)

(** X3.  An exception of the client's all-topics call that is no instance
    of [Exception] leaves [get_all_topics] as it came: the handler raises
    it, unchanged. *)
Lemma get_all_topics_propagates
    (client : Client) (s s' : client_state client) (e : PyExc) :
  respond client client_get_all_topics s = (Raised e, s') ->
  isinstance_Exception e = false ->
  result (run client get_all_topics s) = Raised e.
Proof.
  intros Hcall He. resume_with Hcall. now rewrite He.
Qed.

(** X4.  An exception of the client's price-prediction call that is no
    instance of [Exception] leaves [get_price_prediction] as it came. *)
Lemma get_price_prediction_propagates
    (client : Client) (s s' : client_state client) (token timeframe : string)
    (e : PyExc) :
  respond client (client_get_price_prediction token timeframe) s = (Raised e, s') ->
  isinstance_Exception e = false ->
  result (run client (get_price_prediction token timeframe) s) = Raised e.
Proof.
  intros Hcall He. resume_with Hcall. now rewrite He.
Qed.

(** X16.  When the client's all-topics call raises an instance of
    [Exception] whose [__str__] raises, the f-string of the [except] clause
    raises, and [get_all_topics] raises what [__str__] raised. *)
Lemma get_all_topics_raises_from_str
    (client : Client) (s s' : client_state client) (cls : ExcClass) (from_str : PyExc) :
  respond client client_get_all_topics s = (RaisedUnprintable cls from_str, s') ->
  issubclass_Exception cls = true ->
  result (run client get_all_topics s) = Raised from_str.
Proof.
  intros Hcall Hcls. resume_with Hcall. now rewrite Hcls.
Qed.

(** X17.  When the client's price-prediction call raises an instance of
    [Exception] whose [__str__] raises, [get_price_prediction] raises what
    [__str__] raised. *)
Lemma get_price_prediction_raises_from_str
    (client : Client) (s s' : client_state client) (token timeframe : string)
    (cls : ExcClass) (from_str : PyExc) :
  respond client (client_get_price_prediction token timeframe) s
    = (RaisedUnprintable cls from_str, s') ->
  issubclass_Exception cls = true ->
  result (run client (get_price_prediction token timeframe) s) = Raised from_str.
Proof.
  intros Hcall Hcls. resume_with Hcall. now rewrite Hcls.
Qed.

(** C4, as amended.  When every call of the client ends in a value of the
    model or in an instance of [Exception] whose text can be read, each
    handler returns a string and raises nothing, whatever the value and
    whatever the token and the timeframe. *)
Theorem handlers_return_a_string
    (client : Client) (s : client_state client) :
  (forall call e,
      fst (respond client call s) = Raised e -> isinstance_Exception e = true) ->
  (forall call cls from_str,
      fst (respond client call s) <> RaisedUnprintable cls from_str) ->
  (exists text, result (run client get_all_topics s) = Returned text) /\
  (forall token timeframe,
      exists text,
        result (run client (get_price_prediction token timeframe) s) = Returned text).
Proof.
  intros Herror Htext. split.
  - specialize (Herror client_get_all_topics).
    specialize (Htext client_get_all_topics).
    unfold get_all_topics. cbn [run bind try_except_Exception await ret].
    destruct (respond client client_get_all_topics s) as [[topics|e|cls e] s'];
      cbn [fst] in Herror, Htext;
      cbn [run bind try_except_Exception result].
    + destruct (json_dumps topics 4) as [j|e|cls e] eqn:Hjson;
        cbn [run bind try_except_Exception result ret].
      * eauto.
      * rewrite (json_dumps_raises _ _ _ Hjson). cbn; eauto.
      * now apply json_dumps_printable in Hjson.
    + rewrite (Herror e eq_refl). cbn; eauto.
    + now destruct (Htext cls e).
  - intros token timeframe.
    specialize (Herror (client_get_price_prediction token timeframe)).
    specialize (Htext (client_get_price_prediction token timeframe)).
    unfold get_price_prediction. cbn [run bind try_except_Exception await ret].
    destruct (respond client (client_get_price_prediction token timeframe) s)
      as [[p|e|cls e] s'];
      cbn [fst] in Herror, Htext;
      cbn [run bind try_except_Exception result].
    + destruct (getattr p "inference_data") as [d|e|cls e] eqn:Hd;
        cbn [run bind try_except_Exception result].
      * destruct (getattr d "network_inference_normalized") as [v|e|cls e] eqn:Hv;
          cbn [run bind try_except_Exception result].
        -- destruct (py_str v) as [text|e|cls e] eqn:Hs;
             cbn [run bind try_except_Exception result ret].
           ++ eauto.
           ++ rewrite (py_str_raises _ _ Hs). cbn; eauto.
           ++ now apply py_str_printable in Hs.
        -- rewrite (getattr_raises _ _ _ Hv). cbn; eauto.
        -- now apply getattr_printable in Hv.
      * rewrite (getattr_raises _ _ _ Hd). cbn; eauto.
      * now apply getattr_printable in Hd.
    + rewrite (Herror e eq_refl). cbn; eauto.
    + now destruct (Htext cls e).
Qed.

Lemma handlers_return_a_string_API_error :
  (forall call e,
      fst (respond (client_raising (mkExc Exception "API error")) call tt) = Raised e ->
      isinstance_Exception e = true) /\
  (exists text,
      result (run (client_raising (mkExc Exception "API error")) get_all_topics tt)
        = Returned text) /\
  (forall token timeframe,
      exists text,
        result (run (client_raising (mkExc Exception "API error"))
                    (get_price_prediction token timeframe) tt) = Returned text).
Proof.
  split; [intros call e [= <-]; reflexivity|].
  apply (handlers_return_a_string (client_raising (mkExc Exception "API error")) tt).
  - intros call e [= <-]; reflexivity.
  - intros call cls from_str; discriminate.
Defined.

(** C4 as stated fails.  An instance of [Exception] whose [__str__] raises
    makes the f-string of the [except] clause raise, and both handlers
    raise what [__str__] raised; and an exception outside [Exception], such
    as the [asyncio.CancelledError] of a cancelled call, passes
    [except Exception] and leaves both handlers as it came. *)
Lemma handlers_raise :
  result (run (client_raising_unprintable Exception
                 (mkExc (Subclass "RuntimeError" Exception) "no text"))
              get_all_topics tt)
    = Raised (mkExc (Subclass "RuntimeError" Exception) "no text") /\
  result (run (client_raising_unprintable Exception
                 (mkExc (Subclass "RuntimeError" Exception) "no text"))
              (get_price_prediction "BTC" "5m") tt)
    = Raised (mkExc (Subclass "RuntimeError" Exception) "no text") /\
  result (run (client_raising (mkExc CancelledError EmptyString)) get_all_topics tt)
    = Raised (mkExc CancelledError EmptyString) /\
  result (run (client_raising (mkExc CancelledError EmptyString))
              (get_price_prediction "BTC" "5m") tt)
    = Raised (mkExc CancelledError EmptyString) /\
  ~ (forall (client : Client) (s : client_state client),
        (exists text, result (run client get_all_topics s) = Returned text) /\
        (forall token timeframe,
            exists text,
              result (run client (get_price_prediction token timeframe) s)
                = Returned text)).
Proof.
  repeat (split; [reflexivity|]).
  intros H.
  destruct (H (client_raising_unprintable Exception
                 (mkExc (Subclass "RuntimeError" Exception) "no text")) tt)
    as [[text Ht] _].
  discriminate Ht.
Qed.

(** ** The input model *)

(** C7.  Without the token, without the timeframe or without both, the
    constructor of [GetPricePredictionInput] ends in a validation error that
    reports each missing field, and in no instance. *)
Theorem GetPricePredictionInput_missing_field (kwargs : list (string * PyValue)) :
  assoc "token" kwargs = None \/ assoc "timeframe" kwargs = None ->
  exists errors,
    model_init GetPricePredictionInput kwargs = ValidationError errors /\
    (assoc "token" kwargs = None -> In (mkError "missing" "token") errors) /\
    (assoc "timeframe" kwargs = None -> In (mkError "missing" "timeframe") errors).
Proof.
  intros Hmissing. unfold model_init, GetPricePredictionInput.
  cbn [model_fields validate_fields]. unfold validate_field.
  cbn [field_name annotation field_default].
  destruct (assoc "token" kwargs) as [t|] eqn:Ht;
    destruct (assoc "timeframe" kwargs) as [tf|] eqn:Htf; cbn.
  - destruct Hmissing; discriminate.
  - destruct t; cbn; eexists; (split; [reflexivity|]); cbn; split; intros; auto; discriminate.
  - destruct tf; cbn; eexists; (split; [reflexivity|]); cbn; split; intros; auto; discriminate.
  - eexists; (split; [reflexivity|]); cbn; auto.
Qed.

Lemma GetPricePredictionInput_missing_field_no_arguments :
  (assoc "token" (@nil (string * PyValue)) = None
   \/ assoc "timeframe" (@nil (string * PyValue)) = None) /\
  exists errors,
    model_init GetPricePredictionInput [] = ValidationError errors /\
    (assoc "token" (@nil (string * PyValue)) = None
     -> In (mkError "missing" "token") errors) /\
    (assoc "timeframe" (@nil (string * PyValue)) = None
     -> In (mkError "missing" "timeframe") errors).
Proof.
  split; [left; reflexivity|].
  apply (GetPricePredictionInput_missing_field []). left; reflexivity.
Defined.

(** With one of the two fields the error names the other. *)
Example GetPricePredictionInput_token_only :
  model_init GetPricePredictionInput [("token", PStr "BTC")]
  = ValidationError [mkError "missing" "timeframe"].
Proof. reflexivity. Qed.

Example GetPricePredictionInput_timeframe_only :
  model_init GetPricePredictionInput [("timeframe", PStr "5m")]
  = ValidationError [mkError "missing" "token"].
Proof. reflexivity. Qed.

(** C8.  For every two strings the constructor of
    [GetPricePredictionInput] returns an instance, whichever way round the
    keywords come, and the fields [token] and [timeframe] of the instance
    are the two strings. *)
Theorem GetPricePredictionInput_round_trip (token timeframe : string) :
  exists m,
    model_init GetPricePredictionInput
      [("token", PStr token); ("timeframe", PStr timeframe)] = Valid m /\
    model_init GetPricePredictionInput
      [("timeframe", PStr timeframe); ("token", PStr token)] = Valid m /\
    assoc "token" m = Some (PStr token) /\
    assoc "timeframe" m = Some (PStr timeframe).
Proof.
  eexists. repeat split; reflexivity.
Qed.

(** ** The registry *)

Lemma get_all_allora_actions_map (subclasses : list ActionClass) :
  get_all_allora_actions subclasses = map new subclasses.
Proof.
  unfold get_all_allora_actions.
  enough (forall acc,
             fold_left (fun actions action => (actions ++ [new action])%list) subclasses acc
             = (acc ++ map new subclasses)%list) as H by apply (H []).
  induction subclasses as [|c rest IH]; intros acc; cbn.
  - now rewrite app_nil_r.
  - rewrite IH, <- app_assoc. reflexivity.
Qed.

(** C6.  The registry instantiates each subclass of [AlloraAction] once, in
    order; [ALLORA_ACTIONS] holds one [GetAllTopicsAction] and one
    [GetPricePredictionAction], whose names differ; without subclasses the
    registry returns the empty list. *)
Theorem registry_one_instance_per_action :
  (forall subclasses,
      map class_of (get_all_allora_actions subclasses) = map class_name subclasses) /\
  ALLORA_ACTIONS = [new GetAllTopicsAction; new GetPricePredictionAction] /\
  map class_of ALLORA_ACTIONS = ["GetAllTopicsAction"; "GetPricePredictionAction"] /\
  NoDup (map name ALLORA_ACTIONS) /\
  get_all_allora_actions [] = [].
Proof.
  split; [|split; [|split; [|split]]]; try reflexivity.
  - intros subclasses. rewrite get_all_allora_actions_map, map_map. reflexivity.
  - cbn. repeat constructor; cbn; intuition discriminate.
Qed.

(** * Further properties *)

(** ** The handlers and their client *)

(** X1.  Whatever the client answers, one run of [get_all_topics] makes one
    client call, the all-topics call, and leaves the client in the state
    this call left. *)
Theorem get_all_topics_calls_once
    (client : Client) (s : client_state client) :
  calls (run client get_all_topics s) = [client_get_all_topics] /\
  final (run client get_all_topics s) = snd (respond client client_get_all_topics s).
Proof. apply get_all_topics_run. Qed.

(** X2.  Whatever the client answers, [get_price_prediction] leaves the
    client in the state its one call left. *)
Theorem get_price_prediction_final_state
    (client : Client) (s : client_state client) (token timeframe : string) :
  final (run client (get_price_prediction token timeframe) s)
    = snd (respond client (client_get_price_prediction token timeframe) s).
Proof. apply get_price_prediction_run. Qed.

Lemma get_all_topics_propagates_KeyboardInterrupt :
  isinstance_Exception (mkExc KeyboardInterrupt EmptyString) = false /\
  result (run (client_raising (mkExc KeyboardInterrupt EmptyString)) get_all_topics tt)
    = Raised (mkExc KeyboardInterrupt EmptyString).
Proof.
  split; [reflexivity|].
  exact (get_all_topics_propagates
           (client_raising (mkExc KeyboardInterrupt EmptyString)) tt tt
           (mkExc KeyboardInterrupt EmptyString) eq_refl eq_refl).
Defined.

Lemma get_price_prediction_propagates_SystemExit :
  isinstance_Exception (mkExc SystemExit "1") = false /\
  result (run (client_raising (mkExc SystemExit "1"))
              (get_price_prediction "ETH" "8h") tt)
    = Raised (mkExc SystemExit "1").
Proof.
  split; [reflexivity|].
  exact (get_price_prediction_propagates
           (client_raising (mkExc SystemExit "1")) tt tt "ETH" "8h"
           (mkExc SystemExit "1") eq_refl eq_refl).
Defined.

Lemma get_all_topics_raises_from_str_example :
  issubclass_Exception Exception = true /\
  result (run (client_raising_unprintable Exception
                 (mkExc (Subclass "RuntimeError" Exception) "no text"))
              get_all_topics tt)
    = Raised (mkExc (Subclass "RuntimeError" Exception) "no text").
Proof.
  split; [reflexivity|].
  exact (get_all_topics_raises_from_str
           (client_raising_unprintable Exception
              (mkExc (Subclass "RuntimeError" Exception) "no text"))
           tt tt Exception (mkExc (Subclass "RuntimeError" Exception) "no text")
           eq_refl eq_refl).
Defined.

Lemma get_price_prediction_raises_from_str_example :
  issubclass_Exception (Subclass "ApiError" Exception) = true /\
  result (run (client_raising_unprintable (Subclass "ApiError" Exception)
                 (mkExc TypeError "__str__ returned non-string (type NoneType)"))
              (get_price_prediction "BTC" "5m") tt)
    = Raised (mkExc TypeError "__str__ returned non-string (type NoneType)").
Proof.
  split; [reflexivity|].
  exact (get_price_prediction_raises_from_str
           (client_raising_unprintable (Subclass "ApiError" Exception)
              (mkExc TypeError "__str__ returned non-string (type NoneType)"))
           tt tt "BTC" "5m" (Subclass "ApiError" Exception)
           (mkExc TypeError "__str__ returned non-string (type NoneType)")
           eq_refl eq_refl).
Defined.

(** X5.  When the client returns a prediction without [inference_data],
    or one whose [inference_data] is without
    [network_inference_normalized], the handler returns
    ["Error getting price prediction: "] followed by the text of the
    [AttributeError]: the [except] clause covers the attribute lookups. *)
Theorem get_price_prediction_missing_attribute
    (client : Client) (s s' : client_state client) (token timeframe : string)
    (price_prediction : PyValue) (e : PyExc) :
  respond client (client_get_price_prediction token timeframe) s
    = (Returned price_prediction, s') ->
  getattr price_prediction "inference_data" = Raised e
  \/ (exists inference_data,
         getattr price_prediction "inference_data" = Returned inference_data /\
         getattr inference_data "network_inference_normalized" = Raised e) ->
  result (run client (get_price_prediction token timeframe) s)
    = Returned ("Error getting price prediction: " ++ exc_str e).
Proof.
  intros Hcall [Hdata | (d & Hdata & Hv)]; resume_with Hcall; rewrite Hdata;
    cbn [bind try_except_Exception].
  - now rewrite (getattr_raises _ _ _ Hdata).
  - rewrite Hv. cbn [bind try_except_Exception].
    now rewrite (getattr_raises _ _ _ Hv).
Qed.

Lemma get_price_prediction_missing_attribute_None :
  getattr PNone "inference_data"
    = Raised (mkExc AttributeError
                "'NoneType' object has no attribute 'inference_data'") /\
  result (run (client_returning PNone) (get_price_prediction "BTC" "5m") tt)
    = Returned
        "Error getting price prediction: 'NoneType' object has no attribute 'inference_data'".
Proof.
  split; [reflexivity|].
  exact (get_price_prediction_missing_attribute
           (client_returning PNone) tt tt "BTC" "5m" PNone
           (mkExc AttributeError "'NoneType' object has no attribute 'inference_data'")
           eq_refl (or_introl eq_refl)).
Defined.

(** ** The text of the topics *)

Lemma all_chars_app (p : ascii -> bool) (a b : string) :
  all_chars p (a ++ b) = all_chars p a && all_chars p b.
Proof.
  induction a as [|c a IH]; cbn; [reflexivity|].
  now rewrite IH, andb_assoc.
Qed.

Lemma all_chars_spaces (n : nat) : all_chars ascii_printable (spaces n) = true.
Proof. induction n; cbn; auto. Qed.

Lemma all_chars_join (sep : string) (chunks : list string) :
  all_chars ascii_printable sep = true ->
  Forall (fun c => all_chars ascii_printable c = true) chunks ->
  all_chars ascii_printable (join sep chunks) = true.
Proof.
  intros Hsep. induction 1 as [|c rest Hc Hrest IH]; [reflexivity|].
  destruct rest as [|c' rest']; [exact Hc|].
  change (join sep (c :: c' :: rest')) with (c ++ sep ++ join sep (c' :: rest')).
  rewrite !all_chars_app, Hc, Hsep, IH. reflexivity.
Qed.

Lemma all_chars_uint (d : Decimal.uint) :
  all_chars ascii_printable (NilEmpty.string_of_uint d) = true.
Proof. induction d; cbn; auto. Qed.

Lemma all_chars_int_repr (z : Z) : all_chars ascii_printable (int_repr z) = true.
Proof.
  unfold int_repr, NilZero.string_of_int, NilZero.string_of_uint.
  destruct (Z.to_int z) as [d|d]; destruct d; try reflexivity;
    cbn [all_chars]; try apply (all_chars_uint (Decimal.D0 d));
    try apply all_chars_uint.
Qed.

Lemma all_chars_json_escape_char (c : ascii) :
  all_chars ascii_printable (json_escape_char c) = true.
Proof. destruct c as [[] [] [] [] [] [] [] []]; reflexivity. Qed.

Lemma all_chars_encode_basestring_ascii (s : string) :
  all_chars ascii_printable (encode_basestring_ascii s) = true.
Proof.
  unfold encode_basestring_ascii. rewrite !all_chars_app.
  replace (all_chars ascii_printable DQ) with true by reflexivity.
  rewrite andb_true_r; cbn [andb].
  induction s as [|c s IH]; cbn [flat_map_chars]; [reflexivity|].
  now rewrite all_chars_app, all_chars_json_escape_char, IH.
Qed.

Lemma all_chars_float_text (repr : list FloatChar) :
  all_chars ascii_printable (float_text repr) = true.
Proof.
  induction repr as [|c repr IH]; [reflexivity|].
  cbn [float_text fold_right all_chars]. fold (float_text repr).
  rewrite IH. now destruct c.
Qed.

Lemma all_chars_float_json (f : PyFloat) :
  all_chars ascii_printable (float_json f) = true.
Proof. destruct f; try reflexivity. apply all_chars_float_text. Qed.

Lemma traverse_Forall {A B : Type} (f : A -> outcome B) (P : B -> Prop)
    (l : list A) (ys : list B) :
  traverse f l = Returned ys ->
  Forall (fun x => forall y, f x = Returned y -> P y) l ->
  Forall P ys.
Proof.
  revert ys. induction l as [|x rest IH]; intros ys; cbn.
  - intros [= <-] _. constructor.
  - destruct (f x) as [y|e|c e] eqn:Hx; cbn; try discriminate.
    destruct (traverse f rest) as [ys'|e|c e] eqn:Hrest; cbn; try discriminate.
    intros [= <-] Hall. inversion Hall as [|? ? Hx' Hrest']; subst.
    constructor; auto.
Qed.

Lemma all_chars_layout (opening closing : string) (indent level : nat)
    (chunks : list string) :
  all_chars ascii_printable opening = true ->
  all_chars ascii_printable closing = true ->
  Forall (fun c => all_chars ascii_printable c = true) chunks ->
  all_chars ascii_printable
    (opening ++ (NL ++ spaces (indent * S level))
       ++ join ("," ++ NL ++ spaces (indent * S level)) chunks
       ++ (NL ++ spaces (indent * level)) ++ closing) = true.
Proof.
  intros Hopen Hclose Hchunks.
  rewrite !all_chars_app, !all_chars_spaces, Hopen, Hclose.
  rewrite all_chars_join; [reflexivity| |exact Hchunks].
  rewrite !all_chars_app, all_chars_spaces. reflexivity.
Qed.

Lemma iterencode_ascii (indent : nat) (o : PyValue) :
  forall level s,
    iterencode indent level o = Returned s -> all_chars ascii_printable s = true.
Proof.
  induction o as [| b | z | f | s | items IH | items IH | items IH | cls text attrs _]
    using PyValue_ind; intros level r.
  - now intros [= <-].
  - destruct b; now intros [= <-].
  - cbn [iterencode]. unfold int_str. destruct (Nat.leb _ _); [|discriminate].
    intros [= <-]. apply all_chars_int_repr.
  - intros [= <-]. apply all_chars_float_json.
  - intros [= <-]. apply all_chars_encode_basestring_ascii.
  - destruct items as [|x rest]; [now intros [= <-]|].
    cbn [iterencode].
    destruct (traverse _ _) as [chunks|e|c e] eqn:Ht; cbn [obind]; try discriminate.
    intros [= <-].
    assert (Hchunks : Forall (fun c => all_chars ascii_printable c = true) chunks).
    { eapply traverse_Forall; [exact Ht|].
      rewrite Forall_forall in IH |- *. intros y Hy c Hc. eapply IH; eauto. }
    exact (all_chars_layout "[" "]" indent level chunks eq_refl eq_refl Hchunks).
  - destruct items as [|x rest]; [now intros [= <-]|].
    cbn [iterencode].
    destruct (traverse _ _) as [chunks|e|c e] eqn:Ht; cbn [obind]; try discriminate.
    intros [= <-].
    assert (Hchunks : Forall (fun c => all_chars ascii_printable c = true) chunks).
    { eapply traverse_Forall; [exact Ht|].
      rewrite Forall_forall in IH |- *. intros y Hy c Hc. eapply IH; eauto. }
    exact (all_chars_layout "[" "]" indent level chunks eq_refl eq_refl Hchunks).
  - destruct items as [|x rest]; [now intros [= <-]|].
    cbn [iterencode].
    destruct (traverse _ _) as [chunks|e|c e] eqn:Ht; cbn [obind]; try discriminate.
    intros [= <-].
    assert (Hchunks : Forall (fun c => all_chars ascii_printable c = true) chunks).
    { eapply traverse_Forall; [exact Ht|].
      rewrite Forall_forall in IH |- *. intros [k v] Hy c Hc.
      specialize (IH _ Hy). cbn in IH. destruct IH as [_ IHv].
      destruct (json_key k) as [ks|ek|ck ek]; cbn [obind] in Hc; try discriminate.
      destruct (iterencode indent (S level) v) as [cv|ev|cv' ev] eqn:Hv;
        cbn [obind] in Hc; try discriminate.
      assert (Hitem : all_chars ascii_printable
                        (encode_basestring_ascii ks ++ ": " ++ cv) = true).
      { rewrite !all_chars_app, all_chars_encode_basestring_ascii, (IHv _ _ Hv).
        reflexivity. }
      injection Hc as <-. exact Hitem. }
    exact (all_chars_layout "{" "}" indent level chunks eq_refl eq_refl Hchunks).
  - discriminate.
Qed.

(** On a value of the types the encoder knows, the one error left is the
    [ValueError] of an integer beyond the digit limit. *)
Lemma json_key_ok_raises (key : PyValue) (e : PyExc) :
  json_key_ok key = true -> json_key key = Raised e -> e = int_str_error.
Proof.
  destruct key as [| [] | z | | | | | |]; cbn; try discriminate.
  intros _. apply int_str_raises.
Qed.

Lemma iterencode_serializable_raises (indent : nat) (o : PyValue) :
  json_serializable o = true ->
  forall level e, iterencode indent level o = Raised e -> e = int_str_error.
Proof.
  induction o as [| b | z | f | s | items IH | items IH | items IH | cls text attrs _]
    using PyValue_ind; cbn [json_serializable]; intros Hok level e.
  - discriminate.
  - destruct b; discriminate.
  - apply int_str_raises.
  - discriminate.
  - discriminate.
  - destruct items as [|x rest]; [discriminate|].
    cbn [iterencode].
    destruct (traverse _ _) as [chunks|e'|c e'] eqn:Ht; cbn [obind]; try discriminate.
    intros [= <-]. apply traverse_raises in Ht as (y & Hy & He).
    rewrite forallb_forall in Hok. rewrite Forall_forall in IH. eapply IH; eauto.
  - destruct items as [|x rest]; [discriminate|].
    cbn [iterencode].
    destruct (traverse _ _) as [chunks|e'|c e'] eqn:Ht; cbn [obind]; try discriminate.
    intros [= <-]. apply traverse_raises in Ht as (y & Hy & He).
    rewrite forallb_forall in Hok. rewrite Forall_forall in IH. eapply IH; eauto.
  - destruct items as [|x rest]; [discriminate|].
    cbn [iterencode].
    destruct (traverse _ _) as [chunks|e'|c e'] eqn:Ht; cbn [obind]; try discriminate.
    intros [= <-]. apply traverse_raises in Ht as ([k v] & Hy & He).
    rewrite forallb_forall in Hok. rewrite Forall_forall in IH.
    specialize (Hok _ Hy). specialize (IH _ Hy). cbn in Hok, IH.
    apply andb_true_iff in Hok as [Hk Hv]. destruct IH as [_ IHv].
    destruct (json_key k) as [ks|ek|ck ek] eqn:Hkey; cbn [obind] in He;
      try discriminate.
    + destruct (iterencode indent (S level) v) as [cv|ev|cv' ev] eqn:Hval;
        cbn [obind] in He; try discriminate.
      injection He as <-. eapply IHv; eauto.
    + injection He as <-. eapply json_key_ok_raises; eauto.
  - discriminate.
Qed.

(** X8.  When the client's all-topics call returns a value that
    [json.dumps] encodes, every character of the text [get_all_topics]
    returns is a line feed or a printable ASCII character, whatever the
    strings inside the value hold. *)
Theorem get_all_topics_text_is_ascii
    (client : Client) (s s' : client_state client) (topics : PyValue) :
  respond client client_get_all_topics s = (Returned topics, s') ->
  json_serializable topics = true ->
  exists text,
    result (run client get_all_topics s) = Returned text /\
    all_chars ascii_printable text = true.
Proof.
  intros Hcall Hok.
  destruct (json_dumps topics 4) as [j|e|cls e] eqn:Hjson.
  - exists ("The available topics at Allora Network are:" ++ NL ++ j). split.
    + resume_with Hcall. rewrite Hjson. reflexivity.
    + rewrite !all_chars_app, (iterencode_ascii _ _ _ _ Hjson). reflexivity.
  - pose proof (iterencode_serializable_raises 4 _ Hok _ _ Hjson) as ->.
    exists ("Error getting all topics: " ++ exc_str int_str_error). split.
    + resume_with Hcall. rewrite Hjson. reflexivity.
    + reflexivity.
  - now apply json_dumps_printable in Hjson.
Qed.

Lemma get_all_topics_text_is_ascii_example :
  json_serializable (PList [PStr (chr 233 ++ "t" ++ chr 9)]) = true /\
  exists text,
    result (run (client_returning (PList [PStr (chr 233 ++ "t" ++ chr 9)]))
                get_all_topics tt) = Returned text /\
    all_chars ascii_printable text = true.
Proof.
  split; [reflexivity|].
  exact (get_all_topics_text_is_ascii
           (client_returning (PList [PStr (chr 233 ++ "t" ++ chr 9)])) tt tt
           (PList [PStr (chr 233 ++ "t" ++ chr 9)]) eq_refl eq_refl).
Defined.

(** ** The registry, further *)

(** X10.  The registry returns as many instances as there are subclasses,
    in their order, each with the class, the name and the schema of its
    subclass, and it maps a concatenation of subclass lists to the
    concatenation of the instances. *)
Theorem get_all_allora_actions_in_order (subclasses more : list ActionClass) :
  length (get_all_allora_actions subclasses) = length subclasses /\
  map class_of (get_all_allora_actions subclasses) = map class_name subclasses /\
  map name (get_all_allora_actions subclasses) = map class_field_name subclasses /\
  map args_schema (get_all_allora_actions subclasses)
    = map class_field_args_schema subclasses /\
  get_all_allora_actions (subclasses ++ more)
    = (get_all_allora_actions subclasses ++ get_all_allora_actions more)%list.
Proof.
  rewrite !get_all_allora_actions_map, !map_map, length_map, map_app.
  repeat split; reflexivity.
Qed.

(** X11.  The registry neither enforces nor repairs the uniqueness of
    names: the names of the instances are pairwise distinct exactly when
    the names the subclasses give are. *)
Theorem get_all_allora_actions_names_unique_iff (subclasses : list ActionClass) :
  NoDup (map name (get_all_allora_actions subclasses))
  <-> NoDup (map class_field_name subclasses).
Proof.
  rewrite get_all_allora_actions_map, map_map. reflexivity.
Qed.

(** A registry over two subclasses of the same name keeps both. *)
Example get_all_allora_actions_keeps_duplicates :
  map name (get_all_allora_actions [GetAllTopicsAction; GetAllTopicsAction])
  = ["get_all_topics"; "get_all_topics"].
Proof. reflexivity. Qed.

(** ** The input model, further *)

(** X12.  Whenever the keyword arguments give a string for [token] and a
    string for [timeframe], in whatever order and among whatever other
    keywords, the constructor returns the instance of these two strings. *)
Theorem GetPricePredictionInput_accepts_strings
    (kwargs : list (string * PyValue)) (token timeframe : string) :
  assoc "token" kwargs = Some (PStr token) ->
  assoc "timeframe" kwargs = Some (PStr timeframe) ->
  model_init GetPricePredictionInput kwargs
    = Valid [("token", PStr token); ("timeframe", PStr timeframe)].
Proof.
  intros Ht Htf. unfold model_init, GetPricePredictionInput.
  cbn [model_fields validate_fields]. unfold validate_field.
  cbn [field_name annotation field_default]. rewrite Ht, Htf. reflexivity.
Qed.

Lemma GetPricePredictionInput_accepts_strings_example :
  assoc "token" [("timeframe", PStr "8h"); ("limit", PInt 3); ("token", PStr "ETH")]
    = Some (PStr "ETH") /\
  model_init GetPricePredictionInput
    [("timeframe", PStr "8h"); ("limit", PInt 3); ("token", PStr "ETH")]
    = Valid [("token", PStr "ETH"); ("timeframe", PStr "8h")].
Proof.
  split; [reflexivity|].
  exact (GetPricePredictionInput_accepts_strings
           [("timeframe", PStr "8h"); ("limit", PInt 3); ("token", PStr "ETH")]
           "ETH" "8h" eq_refl eq_refl).
Defined.
